(** * GenAI inference API: fallback orchestration and health aggregation

    A shallow embedding of [apps/fastapi-inference/app.py]: the two backend
    adapters ([generate_with_ollama], [generate_with_bedrock_fallback]), the
    orchestrating endpoint [generate_text] and the [health_check] endpoint.

    The handlers are effectful Python coroutines.  They are embedded as
    computations of a state-and-exception monad [M] over a [World] that
    holds everything outside the process: the wall clock, the remote HTTP
    server, and a trace in which every observable effect (log records, HTTP
    calls, sleeps, adapter invocations) is appended in program order. *)

From Stdlib Require Import ZArith Ascii PrimFloat DecimalString.
From stdpp Require Import gmap strings list.

Set Warnings "-inexact-float,-register-all".
#[local] Open Scope Z_scope.

(** ** Python text *)

(** A Python [str] is modelled by a [string] whose characters are the code
    points below 256.  [isspace] is CPython's [Py_UNICODE_ISSPACE] on that
    range: TAB..CR, FS..US, SPACE, NEL (0x85) and NBSP (0xA0). *)
Definition isspace (c : ascii) : bool :=
  let n := N_of_ascii c in
  ((9 <=? n) && (n <=? 13) || (28 <=? n) && (n <=? 32) || (n =? 133) || (n =? 160))%N.

(** [flush word] closes the word under construction, if there is one. *)
Definition flush (word : string) : list string :=
  match word with
  | EmptyString => []
  | _ => [word]
  end.

(** [str.split()] with no separator: runs of whitespace separate the words,
    leading and trailing whitespace yields no empty word.  [word] is the
    word being scanned. *)
Fixpoint split_from (word : string) (s : string) : list string :=
  match s with
  | EmptyString => flush word
  | String c rest =>
      if isspace c then flush word ++ split_from "" rest
      else split_from (word +:+ String c "") rest
  end.

Definition split (s : string) : list string := split_from "" s.

(** The number of whitespace-separated words of a text, stated without
    reference to [split]: the number of positions at which a word begins,
    that is a non-whitespace character at the start of the text or right
    after a whitespace character. *)
Fixpoint word_starts (after_space : bool) (s : string) : nat :=
  match s with
  | EmptyString => 0%nat
  | String c rest =>
      ((if after_space && negb (isspace c) then 1 else 0)
       + word_starts (isspace c) rest)%nat
  end.

Definition word_count (s : string) : nat := word_starts true s.

(** [str(n)] for an [int]. *)
Definition str_int (n : Z) : string := NilZero.string_of_int (Z.to_int n).

(** ** Exceptions *)

(** The exceptions that reach an [except Exception] clause.  [Error] stands
    for every exception other than FastAPI's [HTTPException] (transport
    errors and timeouts of the HTTP client, JSON decoding errors,
    [AttributeError], ...): only its class name and its [str()] are
    observable here. *)
Inductive Exception :=
| HTTPException (status_code : Z) (detail : string)
| Error (class_name : string) (message : string).

(** [str(e)].  For [HTTPException] this is Starlette's [__str__]:
    ["{status_code}: {detail}"]. *)
Definition str (e : Exception) : string :=
  match e with
  | HTTPException status_code detail => str_int status_code +:+ ": " +:+ detail
  | Error _ message => message
  end.

(** ** JSON values and HTTP *)

Inductive JSON :=
| JNull
| JBool (b : bool)
| JInt (n : Z)
| JFloat (x : float)
| JStr (s : string)
| JList (items : list JSON)
| JDict (entries : gmap string JSON).

(** [type(v).__name__] *)
Definition type_name (v : JSON) : string :=
  match v with
  | JNull => "NoneType"
  | JBool _ => "bool"
  | JInt _ => "int"
  | JFloat _ => "float"
  | JStr _ => "str"
  | JList _ => "list"
  | JDict _ => "dict"
  end.

Definition AttributeError (v : JSON) (attr : string) : Exception :=
  Error "AttributeError"
        ("'" +:+ type_name v +:+ "' object has no attribute '" +:+ attr +:+ "'").

Definition of_option {A} (f : A -> JSON) (o : option A) : JSON :=
  match o with
  | Some a => f a
  | None => JNull
  end.

Module Response.
(** What the handlers read of an [httpx.Response]: [json] is the outcome
    of [response.json()], which raises when the body is not JSON. *)
Record t := mk {
  status_code : Z;
  text : string;
  json : Exception + JSON
}.
End Response.

Inductive HttpCall :=
| GET (url : string) (timeout : float)
| POST (url : string) (json : JSON) (timeout : float).

(** ** Configuration and the request/response models *)

(** The module-level constants read from the environment at import time. *)
Record Config := mkConfig {
  OLLAMA_URL : string;
  BEDROCK_FALLBACK : bool;
  DEFAULT_MODEL : string
}.

Module GenerateRequest.
Record t := mk {
  prompt : string;
  model : string;
  max_tokens : option Z;
  temperature : option float;
  stream : option bool
}.
End GenerateRequest.

Module GenerateResponse.
Record t := mk {
  text : string;
  model : string;
  tokens_used : Z;
  latency_ms : float;
  source : string
}.
End GenerateResponse.

Module HealthResponse.
Record t := mk {
  status : string;
  timestamp : float;
  services : gmap string string
}.
End HealthResponse.

(** ** The world and the monad of handlers *)

Inductive LogLevel := INFO | WARNING | ERROR.

Inductive Backend := Ollama | Bedrock.

Inductive Event :=
| Log (level : LogLevel) (message : string)
| Http (call : HttpCall)
| Sleep (seconds : float)
| Invoke (adapter : Backend).

(** [clock n] is what the [n]-th call of [time.time()] returns;
    [network] is the outcome of an HTTP call through the shared client: a
    response, or the exception it raises (connection refused, timeout, or
    the [AttributeError] of a client that is still [None]).  [trace] lists
    the effects so far, oldest first. *)
Record World := mkWorld {
  clock : nat -> float;
  clock_reads : nat;
  network : HttpCall -> Exception + Response.t;
  trace : list Event
}.

(** A handler run in a world either raises ([inl]) or returns ([inr]), and
    leaves a world behind in both cases. *)
Definition M (A : Type) : Type := World -> (Exception + A) * World.

#[global] Instance M_ret : MRet M := fun A x w => (inr x, w).

#[global] Instance M_bind : MBind M := fun A B f m w =>
  match m w with
  | (inr x, w') => f x w'
  | (inl e, w') => (inl e, w')
  end.

Definition raise {A} (e : Exception) : M A := fun w => (inl e, w).

(** [try: body  except Exception as e: handler e] *)
Definition try_except {A} (body : M A) (handler : Exception -> M A) : M A :=
  fun w =>
    match body w with
    | (inr x, w') => (inr x, w')
    | (inl e, w') => handler e w'
    end.

(** A call whose outcome is already known and which has no other effect. *)
Definition lift {A} (r : Exception + A) : M A := fun w => (r, w).

(** The world after one more effect. *)
Definition record (ev : Event) (w : World) : World :=
  mkWorld (clock w) (clock_reads w) (network w) (trace w ++ [ev]).

Definition emit (ev : Event) : M unit := fun w => (inr tt, record ev w).

(** [time.time()] *)
Definition time_time : M float := fun w =>
  (inr (clock w (clock_reads w)),
   mkWorld (clock w) (S (clock_reads w)) (network w) (trace w)).

Definition logger_info (message : string) : M unit := emit (Log INFO message).
Definition logger_warning (message : string) : M unit := emit (Log WARNING message).
Definition logger_error (message : string) : M unit := emit (Log ERROR message).

Definition asyncio_sleep (seconds : float) : M unit := emit (Sleep seconds).

(** [await http_client.get(...)] and [await http_client.post(...)] *)
Definition http_client_request (call : HttpCall) : M Response.t := fun w =>
  (network w call, record (Http call) w).

Definition http_client_get (url : string) (timeout : float) : M Response.t :=
  http_client_request (GET url timeout).

Definition http_client_post (url : string) (json : JSON) (timeout : float)
  : M Response.t :=
  http_client_request (POST url json timeout).

(** ** Health check endpoint *)

Definition health_check (cfg : Config) : M HealthResponse.t :=
  let services : gmap string string := ∅ in
  services ← try_except
    (response ← http_client_get (OLLAMA_URL cfg +:+ "/api/tags") 5;
     mret (<["ollama" :=
              if Response.status_code response =? 200
              then "healthy" else "unhealthy"]> services))
    (fun e => mret (<["ollama" := "unhealthy: " +:+ str e]> services));
  now ← time_time;
  mret (HealthResponse.mk "healthy" now services).

(** ** Backend adapters *)

Definition ollama_payload (request : GenerateRequest.t) : JSON :=
  JDict (list_to_map
    [("model", JStr (GenerateRequest.model request));
     ("prompt", JStr (GenerateRequest.prompt request));
     ("stream", JBool false);
     ("options", JDict (list_to_map
        [("num_predict", of_option JInt (GenerateRequest.max_tokens request));
         ("temperature", of_option JFloat (GenerateRequest.temperature request))]))]).

(** [result.get(key, default)] on whatever [response.json()] returned. *)
Definition py_get (result : JSON) (key : string) (default : JSON) : M JSON :=
  match result with
  | JDict entries =>
      mret (match entries !! key with Some v => v | None => default end)
  | _ => raise (AttributeError result "get")
  end.

Definition generate_with_ollama (cfg : Config) (request : GenerateRequest.t)
  : M GenerateResponse.t :=
  start_time ← time_time;
  try_except
    (let payload := ollama_payload request in
     response ← http_client_post (OLLAMA_URL cfg +:+ "/api/generate") payload 30;
     (if negb (Response.status_code response =? 200)
      then raise (HTTPException (Response.status_code response)
                    ("Ollama error: " +:+ Response.text response))
      else mret tt);;
     result ← lift (Response.json response);
     now ← time_time;
     let latency_ms := ((now - start_time) * 1000)%float in
     answer ← py_get result "response" (JStr "");
     match answer with
     | JStr s =>
         mret (GenerateResponse.mk
                 s
                 (GenerateRequest.model request)
                 (Z.of_nat (length (split s)))
                 latency_ms
                 "ollama")
     | _ => raise (AttributeError answer "split")
     end)
    (fun e =>
       logger_error ("Ollama generation failed: " +:+ str e);;
       raise (HTTPException 500 ("Ollama generation failed: " +:+ str e))).

Definition generate_with_bedrock_fallback (request : GenerateRequest.t)
  : M GenerateResponse.t :=
  start_time ← time_time;
  asyncio_sleep 0.1;;
  let fallback_response :=
    "[BEDROCK FALLBACK] Response to: " +:+ GenerateRequest.prompt request in
  now ← time_time;
  let latency_ms := ((now - start_time) * 1000)%float in
  mret (GenerateResponse.mk
          fallback_response
          "bedrock-claude"
          (Z.of_nat (length (split fallback_response)))
          latency_ms
          "bedrock").

(** ** Main generation endpoint *)

(** [await adapter(request)]: the invocation is recorded in the trace, so
    that the number of times an adapter was entered can be read off. *)
Definition await (b : Backend) (adapter : GenerateRequest.t -> M GenerateResponse.t)
    (request : GenerateRequest.t) : M GenerateResponse.t :=
  emit (Invoke b);; adapter request.

Section Orchestrator.

(** [generate_text] looks its two adapters up by their global names when
    it runs; the orchestration is stated over whatever is bound to them. *)
Variable primary : GenerateRequest.t -> M GenerateResponse.t.
Variable fallback : GenerateRequest.t -> M GenerateResponse.t.

Definition generate_text_with (cfg : Config) (request : GenerateRequest.t)
  : M GenerateResponse.t :=
  logger_info ("Generation request: model=" +:+ GenerateRequest.model request
               +:+ ", prompt_length="
               +:+ str_int (Z.of_nat (String.length (GenerateRequest.prompt request))));;
  try_except
    (await Ollama primary request)
    (fun e =>
       logger_warning ("Ollama failed: " +:+ str e);;
       if BEDROCK_FALLBACK cfg then
         logger_info "Falling back to Bedrock";;
         try_except
           (await Bedrock fallback request)
           (fun bedrock_error =>
              logger_error ("Bedrock fallback failed: " +:+ str bedrock_error);;
              raise (HTTPException 500
                       ("All inference backends failed. "
                        +:+ "Ollama: " +:+ str e
                        +:+ ", Bedrock: " +:+ str bedrock_error)))
       else
         raise (HTTPException 500
                  ("Ollama failed and Bedrock fallback disabled: " +:+ str e))).

End Orchestrator.

(** The endpoint as deployed. *)
Definition generate_text (cfg : Config) : GenerateRequest.t -> M GenerateResponse.t :=
  generate_text_with (generate_with_ollama cfg) generate_with_bedrock_fallback cfg.

(** ** Observations on traces *)

Definition is_invoke (b : Backend) (ev : Event) : bool :=
  match ev, b with
  | Invoke Ollama, Ollama | Invoke Bedrock, Bedrock => true
  | _, _ => false
  end.

(** How many times adapter [b] was entered in a trace. *)
Definition invocations (b : Backend) (t : list Event) : nat :=
  length (List.filter (is_invoke b) t).

(** The adapter entered last in a trace, if any. *)
Fixpoint last_invoked (t : list Event) : option Backend :=
  match t with
  | [] => None
  | ev :: t' =>
      match last_invoked t', ev with
      | Some b, _ => Some b
      | None, Invoke b => Some b
      | None, _ => None
      end
  end.

(** The name of each backend: the tag its adapter writes in the [source]
    field of its results, and its key in the health report. *)
Definition backend_name (b : Backend) : string :=
  match b with
  | Ollama => "ollama"
  | Bedrock => "bedrock"
  end.

Definition adapter (cfg : Config) (b : Backend)
  : GenerateRequest.t -> M GenerateResponse.t :=
  match b with
  | Ollama => generate_with_ollama cfg
  | Bedrock => generate_with_bedrock_fallback
  end.

(** The first line [generate_text] logs, and the world in which the primary
    adapter is entered. *)
Definition request_line (request : GenerateRequest.t) : string :=
  "Generation request: model=" +:+ GenerateRequest.model request
  +:+ ", prompt_length="
  +:+ str_int (Z.of_nat (String.length (GenerateRequest.prompt request))).

Definition at_primary (request : GenerateRequest.t) (w : World) : World :=
  record (Invoke Ollama) (record (Log INFO (request_line request)) w).

(** The world in which the fallback adapter is entered, after the primary
    adapter raised [e] and left the world [w1]. *)
Definition at_fallback (e : Exception) (w1 : World) : World :=
  record (Invoke Bedrock)
    (record (Log INFO "Falling back to Bedrock")
       (record (Log WARNING ("Ollama failed: " +:+ str e)) w1)).

(** One attempt record of an aggregated failure: backend and cause. *)
Definition attempt_record (attempt : string * Exception) : string :=
  fst attempt +:+ ": " +:+ str (snd attempt).

Fixpoint join (sep : string) (parts : list string) : string :=
  match parts with
  | [] => ""
  | [p] => p
  | p :: rest => p +:+ sep +:+ join sep rest
  end.

(** The detail of an aggregated failure over a list of attempts. *)
Definition all_failed_detail (attempts : list (string * Exception)) : string :=
  "All inference backends failed. " +:+ join ", " (map attempt_record attempts).

(** Shape of the words of a text. *)
Definition is_empty (s : string) : bool :=
  match s with
  | EmptyString => true
  | _ => false
  end.

Fixpoint no_space (s : string) : bool :=
  match s with
  | EmptyString => true
  | String c rest => negb (isspace c) && no_space rest
  end.

(** Events that mark the entry of an adapter. *)
Definition is_entry (ev : Event) : bool :=
  match ev with
  | Invoke _ => true
  | _ => false
  end.

(** [w'] is [w] after some effects, none of which enters an adapter. *)
Definition extends_quietly (w w' : World) : Prop :=
  exists evs, trace w' = trace w ++ evs /\ forallb (fun ev => negb (is_entry ev)) evs = true.

(** ** Health report observations *)

(** The liveness probe of the health check. *)
Definition probe (cfg : Config) : HttpCall :=
  GET (OLLAMA_URL cfg +:+ "/api/tags") 5.

(** The probe returned the expected success indicator. *)
Definition probe_succeeded (cfg : Config) (w : World) : Prop :=
  exists response,
    network w (probe cfg) = inr response /\ Response.status_code response = 200.

(** The backends [generate_text] may use under a configuration. *)
Definition configured_backends (cfg : Config) : list Backend :=
  Ollama :: (if BEDROCK_FALLBACK cfg then [Bedrock] else []).

(** The health check answers with a report that has an entry for every
    configured backend. *)
Definition reports_every_backend (cfg : Config) (w : World) : Prop :=
  exists report w',
    health_check cfg w = (inr report, w')
    /\ forall b, In b (configured_backends cfg) ->
                 is_Some (HealthResponse.services report !! backend_name b).

(** Every entry of the report is ["healthy"] exactly when the probe
    succeeded, and otherwise is ["unhealthy: "] followed by a cause. *)
Definition statuses_carry_cause (cfg : Config) (w : World) : Prop :=
  exists report w',
    health_check cfg w = (inr report, w')
    /\ forall name status,
         HealthResponse.services report !! name = Some status ->
         (status = "healthy" <-> probe_succeeded cfg w)
         /\ (~ probe_succeeded cfg w ->
             exists cause, status = "unhealthy: " +:+ cause).

(** ** Concrete scenarios *)

Definition cfg_on : Config := mkConfig "http://ollama-runner:11434" true "llama3".
Definition cfg_off : Config := mkConfig "http://ollama-runner:11434" false "llama3".

Definition hello : GenerateRequest.t :=
  GenerateRequest.mk "hello" "llama3" (Some 50) (Some 0.7%float) (Some false).

Definition ticking (n : nat) : float :=
  match n with
  | O => 10
  | _ => 10.25
  end.

(** The server answers every call with status 200 and a generated text. *)
Definition world_answering : World :=
  mkWorld ticking 0
    (fun _ => inr (Response.mk 200 "{...}" (inr (JDict {[ "response" := JStr "hi there" ]}))))
    [].

(** The server cannot be reached. *)
Definition world_unreachable : World :=
  mkWorld ticking 0
    (fun _ => inl (Error "ConnectError" "All connection attempts failed"))
    [].

(** The server answers every call with status 503. *)
Definition world_busy : World :=
  mkWorld ticking 0
    (fun _ => inr (Response.mk 503 "busy" (inl (Error "JSONDecodeError" "Expecting value"))))
    [].

(** A replacement for the fallback adapter that always raises. *)
Definition broken_fallback : GenerateRequest.t -> M GenerateResponse.t :=
  fun _ => raise (Error "RuntimeError" "bedrock unavailable").

(** ** Configuration from the environment *)

(** [str.lower()] on the code points below 256: the capitals A..Z and the
    Latin-1 capitals (0xC0..0xDE, the multiplication sign 0xD7 excepted)
    move up by 32; every other character is kept. *)
Definition lower_char (c : ascii) : ascii :=
  let n := N_of_ascii c in
  if ((65 <=? n) && (n <=? 90) || (192 <=? n) && (n <=? 222) && negb (n =? 215))%N
  then ascii_of_N (n + 32)
  else c.

Fixpoint lower (s : string) : string :=
  match s with
  | EmptyString => EmptyString
  | String c rest => String (lower_char c) (lower rest)
  end.

(** [os.getenv(key, default)] *)
Definition os_getenv (environ : gmap string string) (key default : string) : string :=
  match environ !! key with
  | Some value => value
  | None => default
  end.

(** The three module-level assignments under [# Configuration]. *)
Definition load_config (environ : gmap string string) : Config :=
  mkConfig
    (os_getenv environ "OLLAMA_URL" "http://ollama-runner:11434")
    (String.eqb (lower (os_getenv environ "BEDROCK_FALLBACK" "true")) "true")
    (os_getenv environ "DEFAULT_MODEL" "llama3").

Definition either (c lo up : ascii) : bool := Ascii.eqb c lo || Ascii.eqb c up.

(** [v] is the word "true" in any mix of upper and lower case. *)
Definition spells_true (v : string) : bool :=
  match v with
  | String c1 (String c2 (String c3 (String c4 EmptyString))) =>
      either c1 "t" "T" && either c2 "r" "R" && either c3 "u" "U" && either c4 "e" "E"
  | _ => false
  end.

(** ** Further observations *)

(** The one HTTP call of the primary adapter. *)
Definition ollama_call (cfg : Config) (request : GenerateRequest.t) : HttpCall :=
  POST (OLLAMA_URL cfg +:+ "/api/generate") (ollama_payload request) 30.



(** The text holds nothing but whitespace. *)
Fixpoint all_space (s : string) : bool :=
  match s with
  | EmptyString => true
  | String c rest => isspace c && all_space rest
  end.

(** The server answers with status 200 and a JSON object that has no
    ["response"] key. *)
Definition world_silent : World :=
  mkWorld ticking 0
    (fun _ => inr (Response.mk 200 "{...}" (inr (JDict {[ "done" := JBool true ]}))))
    [].

(** The server answers with status 200 and [{"response": null}]. *)
Definition world_null : World :=
  mkWorld ticking 0
    (fun _ => inr (Response.mk 200 "{...}" (inr (JDict {[ "response" := JNull ]}))))
    [].

(** * Properties *)

(** ** Text lemmas *)

Lemma length_flush (word : string) :
  length (flush word) = if is_empty word then 0%nat else 1%nat.
Proof. destruct word; reflexivity. Qed.

Lemma is_empty_snoc (word : string) (c : ascii) :
  is_empty (word +:+ String c "") = false.
Proof. destruct word; reflexivity. Qed.

Lemma length_split_from (s : string) : forall word,
  length (split_from word s)
  = ((if is_empty word then 0 else 1) + word_starts (is_empty word) s)%nat.
Proof.
  induction s as [|c rest IH]; intros word; simpl.
  - rewrite length_flush. lia.
  - destruct (isspace c) eqn:Hc.
    + rewrite length_app, length_flush, IH. simpl.
      rewrite andb_false_r. lia.
    + rewrite IH, is_empty_snoc. simpl.
      destruct (is_empty word); simpl; lia.
Qed.

(** [len(text.split())] is the number of whitespace-separated words. *)
Lemma length_split (s : string) : length (split s) = word_count s.
Proof. unfold split, word_count. now rewrite length_split_from. Qed.

Lemma no_space_snoc (word : string) (c : ascii) :
  no_space word = true -> isspace c = false ->
  no_space (word +:+ String c "") = true.
Proof.
  intros Hw Hc. induction word as [|d word IH]; simpl in *.
  - now rewrite Hc.
  - apply andb_true_iff in Hw as [Hd Hw]. rewrite Hd. simpl. auto.
Qed.

(** Every word [split] returns is non-empty and free of whitespace. *)
Lemma split_from_words (s : string) : forall word,
  no_space word = true ->
  Forall (fun p => is_empty p = false /\ no_space p = true) (split_from word s).
Proof.
  induction s as [|c rest IH]; intros word Hw; simpl.
  - destruct word; simpl; auto.
  - destruct (isspace c) eqn:Hc.
    + apply Forall_app. split; [|now apply IH].
      destruct word; simpl; auto.
    + apply IH. now apply no_space_snoc.
Qed.

Lemma split_words (s : string) :
  Forall (fun p => is_empty p = false /\ no_space p = true) (split s).
Proof. now apply split_from_words. Qed.

Example split_hi_there : split "hi there" = ["hi"; "there"].
Proof. reflexivity. Qed.

Example split_padded : split "  hi   there " = ["hi"; "there"].
Proof. reflexivity. Qed.

Example split_blank : split "   " = [].
Proof. reflexivity. Qed.

Example split_tab_newline :
  split (String (ascii_of_nat 9) ("a" +:+ String (ascii_of_nat 10) "b")) = ["a"; "b"].
Proof. reflexivity. Qed.

(** ** Running the monad *)

Ltac run :=
  unfold generate_text, generate_text_with, await, generate_with_ollama,
    generate_with_bedrock_fallback, health_check, py_get,
    http_client_post, http_client_get, http_client_request,
    logger_info, logger_warning, logger_error, asyncio_sleep, time_time,
    emit, lift, raise, try_except, mbind, M_bind, mret, M_ret;
  simpl.

Lemma invocations_app (b : Backend) (t evs : list Event) :
  invocations b (t ++ evs) = (invocations b t + invocations b evs)%nat.
Proof. unfold invocations. now rewrite List.filter_app, length_app. Qed.

Lemma invocations_quiet (b : Backend) (evs : list Event) :
  forallb (fun ev => negb (is_entry ev)) evs = true -> invocations b evs = 0%nat.
Proof.
  unfold invocations. induction evs as [|ev evs IH]; simpl; [reflexivity|].
  intros H. apply andb_true_iff in H as [Hev Hevs].
  destruct ev; simpl in *; try discriminate; auto.
Qed.

Lemma last_invoked_app (t evs : list Event) :
  last_invoked (t ++ evs)
  = match last_invoked evs with
    | Some b => Some b
    | None => last_invoked t
    end.
Proof.
  induction t as [|ev t IH]; simpl.
  - now destruct (last_invoked evs).
  - rewrite IH. now destruct (last_invoked evs).
Qed.

Lemma last_invoked_quiet (evs : list Event) :
  forallb (fun ev => negb (is_entry ev)) evs = true -> last_invoked evs = None.
Proof.
  induction evs as [|ev evs IH]; simpl; [reflexivity|].
  intros H. apply andb_true_iff in H as [Hev Hevs].
  rewrite (IH Hevs). destruct ev; simpl in *; try discriminate; auto.
Qed.

Lemma extends_quietly_invocations (b : Backend) (w w' : World) :
  extends_quietly w w' -> invocations b (trace w') = invocations b (trace w).
Proof.
  intros (evs & -> & Hq). rewrite invocations_app, (invocations_quiet _ _ Hq). lia.
Qed.

Lemma extends_quietly_last_invoked (w w' : World) :
  extends_quietly w w' -> last_invoked (trace w') = last_invoked (trace w).
Proof.
  intros (evs & -> & Hq). now rewrite last_invoked_app, (last_invoked_quiet _ Hq).
Qed.

(** ** The adapters *)

Ltac quiet :=
  rewrite <- ?app_assoc; eexists; split; [reflexivity | reflexivity].

(** The fallback adapter is a total function of the request and two clock
    readings; its only effect besides reading the clock is the sleep. *)
Lemma generate_with_bedrock_fallback_run (request : GenerateRequest.t) (w : World) :
  generate_with_bedrock_fallback request w
  = (inr (GenerateResponse.mk
            ("[BEDROCK FALLBACK] Response to: " +:+ GenerateRequest.prompt request)
            "bedrock-claude"
            (Z.of_nat (length (split ("[BEDROCK FALLBACK] Response to: "
                                      +:+ GenerateRequest.prompt request))))
            ((clock w (S (clock_reads w)) - clock w (clock_reads w)) * 1000)%float
            "bedrock"),
     mkWorld (clock w) (S (S (clock_reads w))) (network w) (trace w ++ [Sleep 0.1])).
Proof. reflexivity. Qed.

Lemma generate_with_bedrock_fallback_quiet (request : GenerateRequest.t) (w : World) :
  extends_quietly w (snd (generate_with_bedrock_fallback request w)).
Proof. exists [Sleep 0.1]. split; reflexivity. Qed.

(** The primary adapter enters no adapter itself: it only posts to the
    server and, on failure, logs. *)
Lemma generate_with_ollama_quiet (cfg : Config) (request : GenerateRequest.t) (w : World) :
  extends_quietly w (snd (generate_with_ollama cfg request w)).
Proof.
  unfold extends_quietly. run.
  destruct (network w _) as [e|response]; simpl.
  { quiet. }
  destruct (Response.status_code response =? 200); simpl.
  2:{ quiet. }
  destruct (Response.json response) as [e|result]; simpl.
  { quiet. }
  destruct result; simpl; try quiet.
  destruct (entries !! "response") as [[]|]; simpl; quiet.
Qed.

(** Whatever the primary adapter raises leaves it as a 500 [HTTPException]
    whose detail carries the cause. *)
Lemma generate_with_ollama_raises (cfg : Config) (request : GenerateRequest.t)
    (w w1 : World) (e : Exception) :
  generate_with_ollama cfg request w = (inl e, w1) ->
  exists cause, e = HTTPException 500 ("Ollama generation failed: " +:+ cause).
Proof.
  run.
  destruct (network w _) as [e0|response]; simpl.
  { intros [= <- _]. eauto. }
  destruct (Response.status_code response =? 200); simpl.
  2:{ intros [= <- _]. eauto. }
  destruct (Response.json response) as [e0|result]; simpl.
  { intros [= <- _]. eauto. }
  destruct result; simpl; try (intros [= <- _]; eauto).
  destruct (entries !! "response") as [[]|]; simpl;
    try discriminate; intros [= <- _]; eauto.
Qed.

(** What the primary adapter returns: the [response] text of the server's
    answer, its word count, the requested model and the tag ["ollama"]. *)
Lemma generate_with_ollama_returns (cfg : Config) (request : GenerateRequest.t)
    (w w1 : World) (r : GenerateResponse.t) :
  generate_with_ollama cfg request w = (inr r, w1) ->
  GenerateResponse.source r = "ollama"
  /\ GenerateResponse.model r = GenerateRequest.model request
  /\ GenerateResponse.tokens_used r
     = Z.of_nat (length (split (GenerateResponse.text r))).
Proof.
  run.
  destruct (network w _) as [e0|response]; simpl; [discriminate|].
  destruct (Response.status_code response =? 200); simpl; [|discriminate].
  destruct (Response.json response) as [e0|result]; simpl; [discriminate|].
  destruct result; simpl; try discriminate.
  destruct (entries !! "response") as [[]|]; simpl;
    try discriminate; intros [= <- _]; auto.
Qed.

(** ** The orchestrator *)

Section OrchestratorFacts.

Variables primary fallback : GenerateRequest.t -> M GenerateResponse.t.
Variable cfg : Config.
Variable request : GenerateRequest.t.
Variable w : World.

(** The whole decision tree of [generate_text], by the outcomes of the
    two adapters. *)
Lemma generate_text_with_cases :
  generate_text_with primary fallback cfg request w
  = match primary request (at_primary request w) with
    | (inr r, w1) => (inr r, w1)
    | (inl e, w1) =>
        if BEDROCK_FALLBACK cfg then
          match fallback request (at_fallback e w1) with
          | (inr r, w2) => (inr r, w2)
          | (inl e', w2) =>
              (inl (HTTPException 500
                      ("All inference backends failed. "
                       +:+ "Ollama: " +:+ str e +:+ ", Bedrock: " +:+ str e')),
               record (Log ERROR ("Bedrock fallback failed: " +:+ str e')) w2)
          end
        else
          (inl (HTTPException 500
                  ("Ollama failed and Bedrock fallback disabled: " +:+ str e)),
           record (Log WARNING ("Ollama failed: " +:+ str e)) w1)
    end.
Proof.
  unfold generate_text_with, await, at_primary, at_fallback, request_line,
    logger_info, logger_warning, logger_error, emit, raise, try_except,
    mbind, M_bind.
  destruct (primary request _) as [[e|r] w1]; [|reflexivity].
  destruct (BEDROCK_FALLBACK cfg); [|reflexivity].
  destruct (fallback request _) as [[e'|r] w2]; reflexivity.
Qed.

Lemma generate_text_with_primary_ok (r : GenerateResponse.t) (w1 : World) :
  primary request (at_primary request w) = (inr r, w1) ->
  generate_text_with primary fallback cfg request w = (inr r, w1).
Proof. intros H. now rewrite generate_text_with_cases, H. Qed.

Lemma generate_text_with_fallback_ok (e : Exception) (w1 : World)
    (r : GenerateResponse.t) (w2 : World) :
  BEDROCK_FALLBACK cfg = true ->
  primary request (at_primary request w) = (inl e, w1) ->
  fallback request (at_fallback e w1) = (inr r, w2) ->
  generate_text_with primary fallback cfg request w = (inr r, w2).
Proof. intros Hon H1 H2. now rewrite generate_text_with_cases, H1, Hon, H2. Qed.

Lemma generate_text_with_disabled (e : Exception) (w1 : World) :
  BEDROCK_FALLBACK cfg = false ->
  primary request (at_primary request w) = (inl e, w1) ->
  generate_text_with primary fallback cfg request w
  = (inl (HTTPException 500
            ("Ollama failed and Bedrock fallback disabled: " +:+ str e)),
     record (Log WARNING ("Ollama failed: " +:+ str e)) w1).
Proof. intros Hoff H1. now rewrite generate_text_with_cases, H1, Hoff. Qed.

End OrchestratorFacts.

Lemma at_primary_trace (request : GenerateRequest.t) (w : World) :
  trace (at_primary request w)
  = trace w ++ [Log INFO (request_line request); Invoke Ollama].
Proof. unfold at_primary, record. simpl. now rewrite <- app_assoc. Qed.

Lemma at_fallback_trace (e : Exception) (w1 : World) :
  trace (at_fallback e w1)
  = trace w1 ++ [Log WARNING ("Ollama failed: " +:+ str e);
                 Log INFO "Falling back to Bedrock"; Invoke Bedrock].
Proof. unfold at_fallback, record. simpl. now rewrite <- !app_assoc. Qed.

Lemma at_primary_invocations (b : Backend) (request : GenerateRequest.t) (w : World) :
  invocations b (trace (at_primary request w))
  = (invocations b (trace w) + match b with Ollama => 1 | Bedrock => 0 end)%nat.
Proof. rewrite at_primary_trace, invocations_app. now destruct b. Qed.

Lemma at_fallback_invocations (b : Backend) (e : Exception) (w1 : World) :
  invocations b (trace (at_fallback e w1))
  = (invocations b (trace w1) + match b with Ollama => 0 | Bedrock => 1 end)%nat.
Proof. rewrite at_fallback_trace, invocations_app. now destruct b. Qed.

Lemma at_primary_last_invoked (request : GenerateRequest.t) (w : World) :
  last_invoked (trace (at_primary request w)) = Some Ollama.
Proof. now rewrite at_primary_trace, last_invoked_app. Qed.

Lemma at_fallback_last_invoked (e : Exception) (w1 : World) :
  last_invoked (trace (at_fallback e w1)) = Some Bedrock.
Proof. now rewrite at_fallback_trace, last_invoked_app. Qed.

(** ** Fallback orchestration *)

(** C1: when the primary adapter fails, fallback is enabled and the fallback
    adapter fails too, [generate_text] fails with one [HTTPException] of
    status 500 whose detail lists exactly two attempt records, the primary's
    cause first and the fallback's cause second.  The adapters are whatever
    is bound to the two names: the fallback adapter shipped in the
    repository never raises. *)
Theorem both_backends_fail
    (primary fallback : GenerateRequest.t -> M GenerateResponse.t)
    (cfg : Config) (request : GenerateRequest.t) (w : World)
    (e : Exception) (w1 : World) (e' : Exception) (w2 : World) :
  BEDROCK_FALLBACK cfg = true ->
  primary request (at_primary request w) = (inl e, w1) ->
  fallback request (at_fallback e w1) = (inl e', w2) ->
  generate_text_with primary fallback cfg request w
  = (inl (HTTPException 500 (all_failed_detail [("Ollama", e); ("Bedrock", e')])),
     record (Log ERROR ("Bedrock fallback failed: " +:+ str e')) w2).
Proof.
  intros Hon H1 H2.
  rewrite generate_text_with_cases, H1, Hon, H2. reflexivity.
Qed.

Lemma both_backends_fail_witness :
  BEDROCK_FALLBACK cfg_on = true
  /\ fst (generate_with_ollama cfg_on hello (at_primary hello world_unreachable))
     = inl (HTTPException 500 "Ollama generation failed: All connection attempts failed")
  /\ fst (generate_text_with (generate_with_ollama cfg_on) broken_fallback
            cfg_on hello world_unreachable)
     = inl (HTTPException 500
              "All inference backends failed. Ollama: 500: Ollama generation failed: All connection attempts failed, Bedrock: bedrock unavailable").
Proof.
  split; [reflexivity|]. split; [reflexivity|].
  pose proof (both_backends_fail (generate_with_ollama cfg_on) broken_fallback
                cfg_on hello world_unreachable _ _ _ _ eq_refl eq_refl eq_refl) as Hrun.
  rewrite Hrun. reflexivity.
Defined.

(** C2: when the primary adapter succeeds, [generate_text] returns exactly
    its result, tagged ["ollama"], and the fallback adapter is not entered:
    the outcome is the same whatever is bound to the fallback adapter, and
    the trace holds no new invocation of it. *)
Theorem primary_success_skips_fallback
    (cfg : Config) (request : GenerateRequest.t) (w : World)
    (r : GenerateResponse.t) (w1 : World) :
  generate_with_ollama cfg request (at_primary request w) = (inr r, w1) ->
  generate_text cfg request w = (inr r, w1)
  /\ GenerateResponse.source r = "ollama"
  /\ (forall fallback,
        generate_text_with (generate_with_ollama cfg) fallback cfg request w
        = (inr r, w1))
  /\ invocations Bedrock (trace w1) = invocations Bedrock (trace w)
  /\ invocations Ollama (trace w1) = S (invocations Ollama (trace w)).
Proof.
  intros H.
  pose proof (generate_with_ollama_quiet cfg request (at_primary request w)) as Hq.
  rewrite H in Hq. simpl in Hq.
  repeat split.
  - now apply generate_text_with_primary_ok.
  - now apply generate_with_ollama_returns in H.
  - intros fallback. now apply generate_text_with_primary_ok.
  - rewrite (extends_quietly_invocations _ _ _ Hq), at_primary_invocations.
    simpl. lia.
  - rewrite (extends_quietly_invocations _ _ _ Hq), at_primary_invocations.
    simpl. lia.
Qed.

Lemma primary_success_skips_fallback_witness :
  fst (generate_text cfg_on hello world_answering)
  = inr (GenerateResponse.mk "hi there" "llama3" 2 250 "ollama")
  /\ invocations Bedrock (trace (snd (generate_text cfg_on hello world_answering))) = 0%nat.
Proof.
  destruct (primary_success_skips_fallback cfg_on hello world_answering
              (GenerateResponse.mk "hi there" "llama3" 2 250 "ollama")
              (snd (generate_with_ollama cfg_on hello (at_primary hello world_answering)))
              eq_refl)
    as (Hrun & _ & _ & Hcount & _).
  split.
  - now rewrite Hrun.
  - rewrite Hrun. exact Hcount.
Defined.

(** A result of [generate_text] is the result of a run of one adapter. *)
Lemma generate_text_result_of_adapter (cfg : Config) (request : GenerateRequest.t)
    (w : World) (r : GenerateResponse.t) (w' : World) :
  generate_text cfg request w = (inr r, w') ->
  exists b wa, adapter cfg b request wa = (inr r, w').
Proof.
  unfold generate_text. rewrite generate_text_with_cases.
  destruct (generate_with_ollama cfg request (at_primary request w))
    as [[e|r1] w1] eqn:H1.
  - destruct (BEDROCK_FALLBACK cfg); [|discriminate].
    destruct (generate_with_bedrock_fallback request (at_fallback e w1))
      as [[e'|r2] w2] eqn:H2; [discriminate|].
    intros [= <- <-]. now exists Bedrock, (at_fallback e w1).
  - intros [= <- <-]. now exists Ollama, (at_primary request w).
Qed.

(** C3: when the primary adapter fails and fallback is enabled, the
    fallback adapter is entered exactly once and [generate_text] returns
    its result, tagged ["bedrock"]; and whenever [generate_text] returns a
    result, it is the result of the adapter that was entered last, and its
    [source] is that backend's name. *)
Theorem fallback_serves_once
    (cfg : Config) (request : GenerateRequest.t) (w : World) :
  (forall e w1,
      BEDROCK_FALLBACK cfg = true ->
      generate_with_ollama cfg request (at_primary request w) = (inl e, w1) ->
      exists r w2,
        generate_text cfg request w = (inr r, w2)
        /\ generate_with_bedrock_fallback request (at_fallback e w1) = (inr r, w2)
        /\ GenerateResponse.source r = "bedrock"
        /\ invocations Bedrock (trace w2) = S (invocations Bedrock (trace w)))
  /\ (forall r w',
        generate_text cfg request w = (inr r, w') ->
        exists b wa,
          adapter cfg b request wa = (inr r, w')
          /\ last_invoked (trace w') = Some b
          /\ GenerateResponse.source r = backend_name b).
Proof.
  split.
  - intros e w1 Hon H1.
    pose proof (generate_with_ollama_quiet cfg request (at_primary request w)) as Hq1.
    rewrite H1 in Hq1. simpl in Hq1.
    pose proof (generate_with_bedrock_fallback_quiet request (at_fallback e w1)) as Hq2.
    destruct (generate_with_bedrock_fallback request (at_fallback e w1))
      as [[e'|r] w2] eqn:H2; [discriminate|].
    simpl in Hq2. exists r, w2. repeat split.
    + unfold generate_text. eapply generate_text_with_fallback_ok; eauto.
    + rewrite generate_with_bedrock_fallback_run in H2. now injection H2 as <- _.
    + rewrite (extends_quietly_invocations _ _ _ Hq2), at_fallback_invocations,
        (extends_quietly_invocations _ _ _ Hq1), at_primary_invocations. lia.
  - intros r w'. unfold generate_text. rewrite generate_text_with_cases.
    pose proof (generate_with_ollama_quiet cfg request (at_primary request w)) as Hq1.
    destruct (generate_with_ollama cfg request (at_primary request w))
      as [[e|r1] w1] eqn:H1; simpl in Hq1.
    + destruct (BEDROCK_FALLBACK cfg); [|discriminate].
      pose proof (generate_with_bedrock_fallback_quiet request (at_fallback e w1)) as Hq2.
      destruct (generate_with_bedrock_fallback request (at_fallback e w1))
        as [[e'|r2] w2] eqn:H2; [discriminate|].
      simpl in Hq2. intros [= <- <-].
      exists Bedrock, (at_fallback e w1). repeat split.
      * exact H2.
      * now rewrite (extends_quietly_last_invoked _ _ Hq2), at_fallback_last_invoked.
      * rewrite generate_with_bedrock_fallback_run in H2. now injection H2 as <- _.
    + intros [= <- <-].
      exists Ollama, (at_primary request w). repeat split.
      * exact H1.
      * now rewrite (extends_quietly_last_invoked _ _ Hq1), at_primary_last_invoked.
      * now apply generate_with_ollama_returns in H1.
Qed.

Lemma fallback_serves_once_witness :
  BEDROCK_FALLBACK cfg_on = true
  /\ fst (generate_with_ollama cfg_on hello (at_primary hello world_unreachable))
     = inl (HTTPException 500 "Ollama generation failed: All connection attempts failed")
  /\ exists r w2,
       generate_text cfg_on hello world_unreachable = (inr r, w2)
       /\ GenerateResponse.source r = "bedrock"
       /\ invocations Bedrock (trace w2) = 1%nat
       /\ last_invoked (trace w2) = Some Bedrock.
Proof.
  split; [reflexivity|]. split; [reflexivity|].
  destruct (fallback_serves_once cfg_on hello world_unreachable) as [Hserve Hsource].
  destruct (Hserve _ _ eq_refl eq_refl) as (r & w2 & Hrun & _ & Htag & Hcount).
  destruct (Hsource r w2 Hrun) as (b & wa & _ & Hlast & Hname).
  exists r, w2. repeat split; auto.
  rewrite Hlast. f_equal.
  destruct b; [rewrite Htag in Hname; discriminate | reflexivity].
Defined.

(** C4: when the primary adapter fails and fallback is disabled,
    [generate_text] fails at once with one [HTTPException] of status 500
    whose detail carries the primary's cause alone; the fallback adapter is
    not entered, whatever is bound to it. *)
Theorem fallback_disabled_fails_at_once
    (cfg : Config) (request : GenerateRequest.t) (w : World)
    (e : Exception) (w1 : World) :
  BEDROCK_FALLBACK cfg = false ->
  generate_with_ollama cfg request (at_primary request w) = (inl e, w1) ->
  generate_text cfg request w
  = (inl (HTTPException 500
            ("Ollama failed and Bedrock fallback disabled: " +:+ str e)),
     record (Log WARNING ("Ollama failed: " +:+ str e)) w1)
  /\ (forall fallback,
        generate_text_with (generate_with_ollama cfg) fallback cfg request w
        = generate_text cfg request w)
  /\ invocations Bedrock (trace (snd (generate_text cfg request w)))
     = invocations Bedrock (trace w).
Proof.
  intros Hoff H1.
  pose proof (generate_with_ollama_quiet cfg request (at_primary request w)) as Hq1.
  rewrite H1 in Hq1. simpl in Hq1.
  assert (Hrun : forall fallback,
             generate_text_with (generate_with_ollama cfg) fallback cfg request w
             = (inl (HTTPException 500
                       ("Ollama failed and Bedrock fallback disabled: " +:+ str e)),
                record (Log WARNING ("Ollama failed: " +:+ str e)) w1)).
  { intros fallback. now apply generate_text_with_disabled. }
  repeat split.
  - apply Hrun.
  - intros fallback. unfold generate_text. now rewrite !Hrun.
  - unfold generate_text. rewrite Hrun. simpl.
    rewrite invocations_app, (extends_quietly_invocations _ _ _ Hq1),
      at_primary_invocations.
    change (invocations Bedrock [Log WARNING ("Ollama failed: " +:+ str e)]) with 0%nat.
    lia.
Qed.

Lemma fallback_disabled_fails_at_once_witness :
  BEDROCK_FALLBACK cfg_off = false
  /\ fst (generate_text cfg_off hello world_busy)
     = inl (HTTPException 500
              "Ollama failed and Bedrock fallback disabled: 500: Ollama generation failed: 503: Ollama error: busy")
  /\ invocations Bedrock (trace (snd (generate_text cfg_off hello world_busy))) = 0%nat.
Proof.
  split; [reflexivity|].
  destruct (fallback_disabled_fails_at_once cfg_off hello world_busy _ _ eq_refl eq_refl)
    as (Hrun & _ & Hcount).
  split.
  - rewrite Hrun. reflexivity.
  - exact Hcount.
Defined.

(** ** Token counts *)

(** The primary adapter on a 200 answer whose JSON object holds a text
    under ["response"]. *)
Lemma generate_with_ollama_answer (cfg : Config) (request : GenerateRequest.t)
    (w : World) (body : string) (entries : gmap string JSON) (s : string) :
  network w (POST (OLLAMA_URL cfg +:+ "/api/generate") (ollama_payload request) 30)
  = inr (Response.mk 200 body (inr (JDict entries))) ->
  entries !! "response" = Some (JStr s) ->
  fst (generate_with_ollama cfg request w)
  = inr (GenerateResponse.mk s (GenerateRequest.model request)
           (Z.of_nat (length (split s)))
           ((clock w (S (clock_reads w)) - clock w (clock_reads w)) * 1000)%float
           "ollama").
Proof.
  intros Hnet Hget. run. rewrite Hnet. simpl. now rewrite Hget.
Qed.

(** C5: the [tokens_used] of every successful result, of either adapter
    and hence of [generate_text], is the number of whitespace-separated
    words of its text (no usage count reported by a backend is ever read);
    a primary answer [{"response": "hi there"}] to the request
    [{prompt: "hello", model: "llama3", max_tokens: 50}] yields the text
    ["hi there"] with [tokens_used] 2. *)
Theorem tokens_used_is_word_count :
  (forall cfg b request w r w',
      adapter cfg b request w = (inr r, w') ->
      GenerateResponse.tokens_used r
      = Z.of_nat (word_count (GenerateResponse.text r)))
  /\ (forall cfg request w r w',
        generate_text cfg request w = (inr r, w') ->
        GenerateResponse.tokens_used r
        = Z.of_nat (word_count (GenerateResponse.text r)))
  /\ (forall cfg w body temperature stream,
        network w (POST (OLLAMA_URL cfg +:+ "/api/generate")
                     (ollama_payload (GenerateRequest.mk "hello" "llama3" (Some 50)
                                        temperature stream)) 30)
        = inr (Response.mk 200 body (inr (JDict {[ "response" := JStr "hi there" ]}))) ->
        exists r,
          fst (generate_text cfg (GenerateRequest.mk "hello" "llama3" (Some 50)
                                    temperature stream) w) = inr r
          /\ GenerateResponse.text r = "hi there"
          /\ GenerateResponse.model r = "llama3"
          /\ GenerateResponse.tokens_used r = 2).
Proof.
  assert (Hadapter : forall cfg b request w r w',
             adapter cfg b request w = (inr r, w') ->
             GenerateResponse.tokens_used r
             = Z.of_nat (word_count (GenerateResponse.text r))).
  { intros cfg [] request w r w' H; simpl in H.
    - apply generate_with_ollama_returns in H as (_ & _ & ->).
      now rewrite length_split.
    - rewrite generate_with_bedrock_fallback_run in H. injection H as <- _.
      simpl. now rewrite length_split. }
  split; [exact Hadapter|]. split.
  - intros cfg request w r w' H.
    destruct (generate_text_result_of_adapter cfg request w r w' H) as (b & wa & Hb).
    eauto.
  - intros cfg w body temperature stream Hnet.
    set (request := GenerateRequest.mk "hello" "llama3" (Some 50) temperature stream) in *.
    pose proof (generate_with_ollama_answer cfg request (at_primary request w)
                  body _ "hi there" Hnet eq_refl) as Hrun.
    destruct (generate_with_ollama cfg request (at_primary request w))
      as [[e|r] w1] eqn:H1; simpl in Hrun; [discriminate|].
    injection Hrun as ->.
    unfold generate_text.
    rewrite (generate_text_with_primary_ok _ _ _ _ _ _ _ H1). simpl.
    eexists. split; [reflexivity|]. repeat split.
Qed.

Lemma tokens_used_is_word_count_witness :
  (exists r,
      fst (generate_text cfg_on hello world_answering) = inr r
      /\ GenerateResponse.text r = "hi there"
      /\ GenerateResponse.model r = "llama3"
      /\ GenerateResponse.tokens_used r = 2)
  /\ GenerateResponse.tokens_used
       (GenerateResponse.mk "[BEDROCK FALLBACK] Response to: hello"
          "bedrock-claude" 5 0 "bedrock")
     = Z.of_nat (word_count "[BEDROCK FALLBACK] Response to: hello").
Proof.
  destruct tokens_used_is_word_count as (_ & Hany & Hexample).
  split.
  - exact (Hexample cfg_on world_answering "{...}" (Some 0.7%float) (Some false) eq_refl).
  - exact (Hany cfg_on hello world_unreachable _ _ eq_refl).
Defined.

(** ** The fallback adapter *)

(** C9: for every request, in every world, the fallback adapter returns a
    result and raises nothing; the result carries the tag ["bedrock"],
    which no result of the primary adapter carries, and apart from the
    measured latency it is the same in every world. *)
Theorem fallback_adapter_never_raises (request : GenerateRequest.t) (w : World) :
  exists r w',
    generate_with_bedrock_fallback request w = (inr r, w')
    /\ GenerateResponse.source r = "bedrock"
    /\ (forall cfg request1 w1 r1 w1',
          generate_with_ollama cfg request1 w1 = (inr r1, w1') ->
          GenerateResponse.source r <> GenerateResponse.source r1)
    /\ (forall v r2 v',
          generate_with_bedrock_fallback request v = (inr r2, v') ->
          GenerateResponse.text r2 = GenerateResponse.text r
          /\ GenerateResponse.model r2 = GenerateResponse.model r
          /\ GenerateResponse.tokens_used r2 = GenerateResponse.tokens_used r
          /\ GenerateResponse.source r2 = GenerateResponse.source r).
Proof.
  rewrite generate_with_bedrock_fallback_run.
  eexists. eexists. split; [reflexivity|]. simpl. repeat split.
  - intros cfg request1 w1 r1 w1' H1.
    apply generate_with_ollama_returns in H1 as (-> & _). discriminate.
  - rewrite generate_with_bedrock_fallback_run in H. now injection H as <- _.
  - rewrite generate_with_bedrock_fallback_run in H. now injection H as <- _.
  - rewrite generate_with_bedrock_fallback_run in H. now injection H as <- _.
  - rewrite generate_with_bedrock_fallback_run in H. now injection H as <- _.
Qed.

Lemma fallback_adapter_never_raises_witness :
  exists r w',
    generate_with_bedrock_fallback hello world_unreachable = (inr r, w')
    /\ GenerateResponse.source r = "bedrock"
    /\ GenerateResponse.source r
       <> GenerateResponse.source (GenerateResponse.mk "hi there" "llama3" 2 250 "ollama").
Proof.
  destruct (fallback_adapter_never_raises hello world_unreachable)
    as (r & w' & Hrun & Htag & Hother & _).
  exists r, w'. repeat split; auto.
  exact (Hother cfg_on hello world_answering _ _ eq_refl).
Defined.

(** With fallback enabled and the adapters of the repository,
    [generate_text] always returns a result: the branch in which both
    adapters fail is not reached. *)
Lemma generate_text_total_with_fallback (cfg : Config) (request : GenerateRequest.t)
    (w : World) :
  BEDROCK_FALLBACK cfg = true ->
  exists r w', generate_text cfg request w = (inr r, w').
Proof.
  intros Hon. unfold generate_text. rewrite generate_text_with_cases, Hon.
  destruct (generate_with_ollama cfg request (at_primary request w)) as [[e|r] w1].
  - rewrite generate_with_bedrock_fallback_run. eauto.
  - eauto.
Qed.

(** C10: every result of the fallback adapter names the model
    ["bedrock-claude"], whatever model was requested, and its text is
    ["[BEDROCK FALLBACK] Response to: "] followed by the prompt; so a
    response served by the fallback can name a model other than the one
    requested, as for the request [hello] when the server is unreachable. *)
Theorem fallback_reports_fixed_model :
  (forall request w,
      exists r w',
        generate_with_bedrock_fallback request w = (inr r, w')
        /\ GenerateResponse.model r = "bedrock-claude"
        /\ GenerateResponse.text r
           = "[BEDROCK FALLBACK] Response to: " +:+ GenerateRequest.prompt request)
  /\ (exists r w',
        generate_text cfg_on hello world_unreachable = (inr r, w')
        /\ GenerateResponse.source r = "bedrock"
        /\ GenerateResponse.model r = "bedrock-claude"
        /\ GenerateResponse.model r <> GenerateRequest.model hello).
Proof.
  split.
  - intros request w. rewrite generate_with_bedrock_fallback_run.
    eexists. eexists. split; [reflexivity|]. split; reflexivity.
  - eexists. eexists. split; [reflexivity|]. simpl. repeat split. discriminate.
Qed.

(** ** Health check *)

Lemma health_check_run (cfg : Config) (w : World) :
  health_check cfg w
  = (inr (HealthResponse.mk "healthy" (clock w (clock_reads w))
            (<["ollama" :=
                 match network w (probe cfg) with
                 | inr response =>
                     if Response.status_code response =? 200
                     then "healthy" else "unhealthy"
                 | inl e => "unhealthy: " +:+ str e
                 end]> ∅)),
     mkWorld (clock w) (S (clock_reads w)) (network w)
       (trace w ++ [Http (probe cfg)])).
Proof.
  run. unfold probe. now destruct (network w _) as [e|response].
Qed.

(** C6, as the code has it: the health check never fails, a failure of
    the probe is captured in the report as an ["unhealthy: ..."] entry, and
    the report has exactly one entry, under ["ollama"], the only backend
    that is probed. *)
Theorem health_check_never_fails (cfg : Config) (w : World) :
  exists report w',
    health_check cfg w = (inr report, w')
    /\ (forall name,
          is_Some (HealthResponse.services report !! name) <-> name = "ollama")
    /\ (forall e,
          network w (probe cfg) = inl e ->
          HealthResponse.services report !! "ollama"
          = Some ("unhealthy: " +:+ str e)).
Proof.
  rewrite health_check_run. eexists. eexists. split; [reflexivity|]. simpl. split.
  - intros name. split.
    + intros Hsome. destruct (decide (name = "ollama")) as [|Hne]; [assumption|].
      rewrite lookup_insert_ne, lookup_empty in Hsome by congruence.
      now destruct Hsome.
    + intros ->. rewrite lookup_insert_eq. eauto.
  - intros e ->. now rewrite lookup_insert_eq.
Qed.

Lemma health_check_never_fails_witness :
  exists report w',
    health_check cfg_on world_unreachable = (inr report, w')
    /\ HealthResponse.services report !! "ollama"
       = Some "unhealthy: All connection attempts failed"
    /\ ~ is_Some (HealthResponse.services report !! "bedrock").
Proof.
  destruct (health_check_never_fails cfg_on world_unreachable)
    as (report & w' & Hrun & Hkeys & Hcaptured).
  exists report, w'. split; [exact Hrun|]. split.
  - exact (Hcaptured _ eq_refl).
  - intros Hsome. apply Hkeys in Hsome. discriminate.
Defined.

(** C6, as worded, fails: with the primary backend unreachable and the
    fallback backend enabled, the report has no entry for the fallback
    backend. *)
Lemma health_report_omits_fallback : ~ reports_every_backend cfg_on world_unreachable.
Proof.
  intros (report & w' & Hrun & Hall).
  rewrite health_check_run in Hrun. injection Hrun as <- _.
  destruct (Hall Bedrock) as [status Hstatus]; [right; now left|].
  vm_compute in Hstatus. discriminate.
Qed.

(** C7, as the code has it: the ["ollama"] entry is ["healthy"] exactly
    when the probe returned status 200; a response with any other status
    gives the bare ["unhealthy"], with no detail; an exception raised by
    the probe gives ["unhealthy: "] followed by its [str()]. *)
Theorem health_status_by_probe_outcome (cfg : Config) (w : World) :
  exists report w',
    health_check cfg w = (inr report, w')
    /\ (HealthResponse.services report !! "ollama" = Some "healthy"
        <-> probe_succeeded cfg w)
    /\ (forall response,
          network w (probe cfg) = inr response ->
          Response.status_code response <> 200 ->
          HealthResponse.services report !! "ollama" = Some "unhealthy")
    /\ (forall e,
          network w (probe cfg) = inl e ->
          HealthResponse.services report !! "ollama"
          = Some ("unhealthy: " +:+ str e)).
Proof.
  rewrite health_check_run. eexists. eexists. split; [reflexivity|]. simpl.
  rewrite lookup_insert_eq. repeat split.
  - unfold probe_succeeded.
    destruct (network w (probe cfg)) as [e|response].
    + discriminate.
    + destruct (Response.status_code response =? 200) eqn:Hc; [|discriminate].
      intros _. exists response. split; [reflexivity|]. now apply Z.eqb_eq.
  - intros (response & -> & ->). reflexivity.
  - intros response -> Hne. apply Z.eqb_neq in Hne. now rewrite Hne.
  - intros e ->. reflexivity.
Qed.

Lemma health_status_by_probe_outcome_witness :
  (exists report w',
      health_check cfg_on world_busy = (inr report, w')
      /\ HealthResponse.services report !! "ollama" = Some "unhealthy")
  /\ (exists report w',
        health_check cfg_on world_unreachable = (inr report, w')
        /\ HealthResponse.services report !! "ollama"
           = Some "unhealthy: All connection attempts failed")
  /\ (exists report w',
        health_check cfg_on world_answering = (inr report, w')
        /\ HealthResponse.services report !! "ollama" = Some "healthy").
Proof.
  split; [|split].
  - destruct (health_status_by_probe_outcome cfg_on world_busy)
      as (report & w' & Hrun & _ & Hother & _).
    exists report, w'. split; [exact Hrun|].
    apply (Hother _ eq_refl). discriminate.
  - destruct (health_status_by_probe_outcome cfg_on world_unreachable)
      as (report & w' & Hrun & _ & _ & Hraised).
    exists report, w'. split; [exact Hrun|].
    exact (Hraised _ eq_refl).
  - destruct (health_status_by_probe_outcome cfg_on world_answering)
      as (report & w' & Hrun & Hiff & _).
    exists report, w'. split; [exact Hrun|].
    apply Hiff. eexists. split; reflexivity.
Defined.

(** C7, as worded, fails: a probe answered with status 503 gives the
    entry ["unhealthy"], which is not ["unhealthy: "] followed by a cause. *)
Lemma health_status_without_cause : ~ statuses_carry_cause cfg_on world_busy.
Proof.
  intros (report & w' & Hrun & Hall).
  rewrite health_check_run in Hrun. injection Hrun as <- _.
  destruct (Hall "ollama" "unhealthy") as [_ Hcause]; [reflexivity|].
  destruct Hcause as [cause Hcause].
  - intros (response & Hnet & Hcode). injection Hnet as <-. discriminate.
  - discriminate.
Qed.

(** C8: whenever the health check answers, and it always does, the
    top-level [status] of the response is ["healthy"], whatever the entry
    of the backend says. *)
Theorem health_status_always_healthy (cfg : Config) (w : World) :
  exists report w',
    health_check cfg w = (inr report, w')
    /\ HealthResponse.status report = "healthy".
Proof.
  rewrite health_check_run. eexists. eexists. split; reflexivity.
Qed.

(** * Further properties of the code *)

(** ** The primary adapter, case by case *)

Ltac ollama_cases w :=
  run;
  destruct (network w _) as [?e|?response] eqn:?Hnet; simpl;
  [| destruct (Response.status_code _ =? 200) eqn:?Hcode; simpl;
     [ destruct (Response.json _) as [?e|?result] eqn:?Hjson; simpl;
       [| destruct result as [| | | | | |?entries]; simpl;
          [| | | | | | destruct (entries !! "response") as [[| | | | | |]|] eqn:?Hget; simpl]]
     |]].

(** The effects of the primary adapter: one HTTP call, and on failure one
    ERROR record that repeats the detail of the exception raised. *)
Lemma generate_with_ollama_effects (cfg : Config) (request : GenerateRequest.t)
    (w : World) (o : Exception + GenerateResponse.t) (w1 : World) :
  generate_with_ollama cfg request w = (o, w1) ->
  match o with
  | inr _ => trace w1 = trace w ++ [Http (ollama_call cfg request)]
  | inl e =>
      exists cause,
        e = HTTPException 500 ("Ollama generation failed: " +:+ cause)
        /\ trace w1 = trace w ++ [Http (ollama_call cfg request);
                                  Log ERROR ("Ollama generation failed: " +:+ cause)]
  end.
Proof.
  unfold ollama_call. ollama_cases w; intros [= <- <-]; simpl;
    rewrite <- ?app_assoc; first [reflexivity | eexists; split; reflexivity].
Qed.

(** X1: a 200 answer whose JSON object has no ["response"] key is not an
    error: the primary adapter returns the empty text with [tokens_used] 0. *)
Theorem ollama_missing_response_key
    (cfg : Config) (request : GenerateRequest.t) (w : World)
    (response : Response.t) (entries : gmap string JSON) :
  network w (ollama_call cfg request) = inr response ->
  Response.status_code response = 200 ->
  Response.json response = inr (JDict entries) ->
  entries !! "response" = None ->
  exists latency,
    fst (generate_with_ollama cfg request w)
    = inr (GenerateResponse.mk "" (GenerateRequest.model request) 0 latency "ollama").
Proof.
  unfold ollama_call. intros Hnet Hcode Hjson Hget. run.
  rewrite Hnet. simpl. rewrite Hcode. simpl. rewrite Hjson. simpl.
  rewrite Hget. simpl. eauto.
Qed.

Lemma ollama_missing_response_key_witness :
  exists latency,
    fst (generate_with_ollama cfg_on hello world_silent)
    = inr (GenerateResponse.mk "" "llama3" 0 latency "ollama").
Proof.
  exact (ollama_missing_response_key cfg_on hello world_silent _
           {[ "done" := JBool true ]} eq_refl eq_refl eq_refl eq_refl).
Defined.

(** X2: the primary adapter returns a result exactly when the server
    answers with status 200 and a JSON object whose ["response"] is a
    string or is missing; a transport error, another status, a body that
    is not JSON or not an object, and a ["response"] that is not a string
    all make it raise. *)
Theorem ollama_succeeds_iff
    (cfg : Config) (request : GenerateRequest.t) (w : World) :
  (exists r w1, generate_with_ollama cfg request w = (inr r, w1))
  <-> (exists response entries,
          network w (ollama_call cfg request) = inr response
          /\ Response.status_code response = 200
          /\ Response.json response = inr (JDict entries)
          /\ (entries !! "response" = None
              \/ exists s, entries !! "response" = Some (JStr s))).
Proof.
  unfold ollama_call. split.
  - intros (r & w1 & H). revert H.
    ollama_cases w; try discriminate; intros _;
      exists response, entries; apply Z.eqb_eq in Hcode; eauto 10.
  - intros (response & entries & Hnet & Hcode & Hjson & Hget). run.
    rewrite Hnet. simpl. apply Z.eqb_eq in Hcode. rewrite Hcode. simpl.
    rewrite Hjson. simpl.
    destruct Hget as [-> | (s & ->)]; simpl; eauto.
Qed.

(** X3: an answer with a status other than 200 never leaves the primary
    adapter under its own status: the [HTTPException] raised for it is
    caught by the adapter's own handler and raised again with status 500,
    the upstream status and body kept in the detail; [response.json()] is
    not consulted. *)
Theorem ollama_wraps_upstream_status
    (cfg : Config) (request : GenerateRequest.t) (w : World)
    (response : Response.t) :
  network w (ollama_call cfg request) = inr response ->
  Response.status_code response <> 200 ->
  fst (generate_with_ollama cfg request w)
  = inl (HTTPException 500
           ("Ollama generation failed: "
            +:+ str (HTTPException (Response.status_code response)
                       ("Ollama error: " +:+ Response.text response)))).
Proof.
  unfold ollama_call. intros Hnet Hcode. run.
  rewrite Hnet. simpl. apply Z.eqb_neq in Hcode. rewrite Hcode. reflexivity.
Qed.

Lemma ollama_wraps_upstream_status_witness :
  fst (generate_with_ollama cfg_on hello world_busy)
  = inl (HTTPException 500 "Ollama generation failed: 503: Ollama error: busy").
Proof.
  rewrite (ollama_wraps_upstream_status cfg_on hello world_busy _ eq_refl).
  - reflexivity.
  - discriminate.
Defined.

(** X4: a 200 answer whose ["response"] is present but is not a string is
    a failure of the primary adapter: it raises status 500 with the
    [AttributeError] of calling [split] on a value of that type. *)
Theorem ollama_rejects_non_text_answer
    (cfg : Config) (request : GenerateRequest.t) (w : World)
    (response : Response.t) (entries : gmap string JSON) (v : JSON) :
  network w (ollama_call cfg request) = inr response ->
  Response.status_code response = 200 ->
  Response.json response = inr (JDict entries) ->
  entries !! "response" = Some v ->
  (forall s, v <> JStr s) ->
  fst (generate_with_ollama cfg request w)
  = inl (HTTPException 500
           ("Ollama generation failed: '" +:+ type_name v
            +:+ "' object has no attribute 'split'")).
Proof.
  unfold ollama_call. intros Hnet Hcode Hjson Hget Hv. run.
  rewrite Hnet. simpl. apply Z.eqb_eq in Hcode. rewrite Hcode. simpl.
  rewrite Hjson. simpl. rewrite Hget. simpl.
  destruct v; try reflexivity. now destruct (Hv s).
Qed.

Lemma ollama_rejects_non_text_answer_witness :
  fst (generate_with_ollama cfg_on hello world_null)
  = inl (HTTPException 500
           "Ollama generation failed: 'NoneType' object has no attribute 'split'").
Proof.
  rewrite (ollama_rejects_non_text_answer cfg_on hello world_null _
             {[ "response" := JNull ]} JNull eq_refl eq_refl eq_refl eq_refl).
  - reflexivity.
  - discriminate.
Defined.

(** ** What one request does to the outside world *)




(** X6: [generate_text] can raise only when fallback is disabled, and what
    it raises then is an [HTTPException] of status 500 whose detail wraps
    the primary adapter's own 500. *)
Theorem generate_text_raises_only_when_disabled
    (cfg : Config) (request : GenerateRequest.t) (w : World)
    (e : Exception) (w' : World) :
  generate_text cfg request w = (inl e, w') ->
  BEDROCK_FALLBACK cfg = false
  /\ exists cause,
       e = HTTPException 500
             ("Ollama failed and Bedrock fallback disabled: "
              +:+ str (HTTPException 500 ("Ollama generation failed: " +:+ cause))).
Proof.
  unfold generate_text. rewrite generate_text_with_cases.
  destruct (generate_with_ollama cfg request (at_primary request w))
    as [[e1|r] w1] eqn:H1; [|discriminate].
  apply generate_with_ollama_effects in H1 as (cause & -> & _).
  destruct (BEDROCK_FALLBACK cfg).
  - rewrite generate_with_bedrock_fallback_run. discriminate.
  - intros [= <- _]. eauto.
Qed.

Lemma generate_text_raises_only_when_disabled_witness :
  BEDROCK_FALLBACK cfg_off = false
  /\ exists cause,
       fst (generate_text cfg_off hello world_unreachable)
       = inl (HTTPException 500
                ("Ollama failed and Bedrock fallback disabled: "
                 +:+ str (HTTPException 500 ("Ollama generation failed: " +:+ cause)))).
Proof.
  destruct (generate_text_raises_only_when_disabled cfg_off hello world_unreachable
              _ _ eq_refl) as (Hoff & cause & Hcause).
  split; [exact Hoff|]. exists cause. rewrite <- Hcause. reflexivity.
Defined.




(** ** Token counts, continued *)

Lemma word_starts_bound (s : string) : forall after_space : bool,
  (2 * word_starts after_space s
   <= String.length s + (if after_space then 1 else 0))%nat.
Proof.
  induction s as [|c rest IH]; intros after_space; simpl.
  - destruct after_space; lia.
  - destruct (isspace c) eqn:Hc; simpl.
    + rewrite andb_false_r. specialize (IH true). simpl in IH.
      destruct after_space; lia.
    + rewrite andb_true_r. specialize (IH false). simpl in IH.
      destruct after_space; lia.
Qed.

Lemma word_count_zero (s : string) : word_count s = 0%nat <-> all_space s = true.
Proof.
  unfold word_count. induction s as [|c rest IH]; simpl; [tauto|].
  destruct (isspace c); simpl; [exact IH|]. split; [lia | discriminate].
Qed.

Lemma adapter_tokens_used (cfg : Config) (b : Backend) (request : GenerateRequest.t)
    (w : World) (r : GenerateResponse.t) (w' : World) :
  adapter cfg b request w = (inr r, w') ->
  GenerateResponse.tokens_used r = Z.of_nat (word_count (GenerateResponse.text r)).
Proof.
  destruct b; simpl; intros H.
  - apply generate_with_ollama_returns in H as (_ & _ & ->). now rewrite length_split.
  - rewrite generate_with_bedrock_fallback_run in H. injection H as <- _.
    simpl. now rewrite length_split.
Qed.

(** X9: the [tokens_used] of a fallback result counts the words of the
    echoed prompt plus the four words of the banner put before it; it is
    at least 4 and says nothing about generated text. *)
Theorem fallback_tokens_count_the_prompt (request : GenerateRequest.t) (w : World) :
  exists r,
    fst (generate_with_bedrock_fallback request w) = inr r
    /\ GenerateResponse.tokens_used r
       = 4 + Z.of_nat (word_count (GenerateRequest.prompt request)).
Proof.
  rewrite generate_with_bedrock_fallback_run. eexists. split; [reflexivity|].
  cbn [GenerateResponse.tokens_used]. rewrite length_split.
  change (word_count ("[BEDROCK FALLBACK] Response to: "
                      +:+ GenerateRequest.prompt request))
    with (4 + word_count (GenerateRequest.prompt request))%nat.
  lia.
Qed.

(** X10: for every result of [generate_text], [tokens_used] is not
    negative and is at most half the length of the text, rounded up. *)
Theorem tokens_used_bounds
    (cfg : Config) (request : GenerateRequest.t) (w : World)
    (r : GenerateResponse.t) (w' : World) :
  generate_text cfg request w = (inr r, w') ->
  0 <= GenerateResponse.tokens_used r
  /\ 2 * GenerateResponse.tokens_used r
     <= Z.of_nat (String.length (GenerateResponse.text r)) + 1.
Proof.
  intros H. apply generate_text_result_of_adapter in H as (b & wa & H).
  apply adapter_tokens_used in H. rewrite H.
  pose proof (word_starts_bound (GenerateResponse.text r) true) as Hb.
  cbv iota in Hb. unfold word_count. lia.
Qed.

Lemma tokens_used_bounds_witness :
  exists r w',
    generate_text cfg_on hello world_answering = (inr r, w')
    /\ GenerateResponse.text r = "hi there"
    /\ 0 <= GenerateResponse.tokens_used r
    /\ 2 * GenerateResponse.tokens_used r
       <= Z.of_nat (String.length (GenerateResponse.text r)) + 1.
Proof.
  eexists. eexists. split; [reflexivity|]. split; [reflexivity|].
  exact (tokens_used_bounds cfg_on hello world_answering _ _ eq_refl).
Defined.

(** X11: a result of the primary adapter has [tokens_used] 0 exactly when
    its text is empty or holds nothing but whitespace. *)
Theorem ollama_zero_tokens_iff_blank
    (cfg : Config) (request : GenerateRequest.t) (w : World)
    (r : GenerateResponse.t) (w1 : World) :
  generate_with_ollama cfg request w = (inr r, w1) ->
  GenerateResponse.tokens_used r = 0 <-> all_space (GenerateResponse.text r) = true.
Proof.
  intros H. apply (adapter_tokens_used cfg Ollama) in H. rewrite H.
  rewrite <- word_count_zero. lia.
Qed.

Lemma ollama_zero_tokens_iff_blank_witness :
  exists r w1,
    generate_with_ollama cfg_on hello world_silent = (inr r, w1)
    /\ GenerateResponse.text r = ""
    /\ (GenerateResponse.tokens_used r = 0
        <-> all_space (GenerateResponse.text r) = true).
Proof.
  eexists. eexists. split; [reflexivity|]. split; [reflexivity|].
  exact (ollama_zero_tokens_iff_blank cfg_on hello world_silent _ _ eq_refl).
Defined.

(** ** What a request can and cannot change *)

(** X12: the [stream] flag of a request has no effect: two requests that
    differ in it alone have the same outcome and leave the same world, and
    the payload sent to the server always says ["stream": false]. *)
Theorem stream_flag_is_inert
    (cfg : Config) (prompt model : string) (max_tokens : option Z)
    (temperature : option float) (stream1 stream2 : option bool) (w : World) :
  generate_text cfg (GenerateRequest.mk prompt model max_tokens temperature stream1) w
  = generate_text cfg (GenerateRequest.mk prompt model max_tokens temperature stream2) w
  /\ exists entries,
       ollama_payload (GenerateRequest.mk prompt model max_tokens temperature stream1)
       = JDict entries
       /\ entries !! "stream" = Some (JBool false).
Proof.
  split; [reflexivity|]. eexists. split; reflexivity.
Qed.

(** X13: every result of [generate_text] is of one of two kinds: tagged
    ["ollama"] and naming the requested model, or tagged ["bedrock"],
    naming ["bedrock-claude"] and echoing the prompt, the latter only when
    fallback is enabled. *)
Theorem generate_text_result_kinds
    (cfg : Config) (request : GenerateRequest.t) (w : World)
    (r : GenerateResponse.t) (w' : World) :
  generate_text cfg request w = (inr r, w') ->
  (GenerateResponse.source r = "ollama"
   /\ GenerateResponse.model r = GenerateRequest.model request)
  \/ (GenerateResponse.source r = "bedrock"
      /\ BEDROCK_FALLBACK cfg = true
      /\ GenerateResponse.model r = "bedrock-claude"
      /\ GenerateResponse.text r
         = "[BEDROCK FALLBACK] Response to: " +:+ GenerateRequest.prompt request).
Proof.
  unfold generate_text. rewrite generate_text_with_cases.
  destruct (generate_with_ollama cfg request (at_primary request w))
    as [[e|r1] w1] eqn:H1.
  - destruct (BEDROCK_FALLBACK cfg); [|discriminate].
    rewrite generate_with_bedrock_fallback_run. intros [= <- _].
    right. repeat split.
  - intros [= <- _]. left.
    apply generate_with_ollama_returns in H1 as (Hs & Hm & _). now split.
Qed.

Lemma generate_text_result_kinds_witness :
  exists r w',
    generate_text cfg_on hello world_unreachable = (inr r, w')
    /\ ((GenerateResponse.source r = "ollama"
         /\ GenerateResponse.model r = GenerateRequest.model hello)
        \/ (GenerateResponse.source r = "bedrock"
            /\ BEDROCK_FALLBACK cfg_on = true
            /\ GenerateResponse.model r = "bedrock-claude"
            /\ GenerateResponse.text r
               = "[BEDROCK FALLBACK] Response to: " +:+ GenerateRequest.prompt hello)).
Proof.
  eexists. eexists. split; [reflexivity|].
  exact (generate_text_result_kinds cfg_on hello world_unreachable _ _ eq_refl).
Defined.

(** ** Configuration *)

Lemma lower_char_t (c : ascii) : Ascii.eqb (lower_char c) "t" = either c "t" "T".
Proof. destruct c as [[] [] [] [] [] [] [] []]; reflexivity. Qed.

Lemma lower_char_r (c : ascii) : Ascii.eqb (lower_char c) "r" = either c "r" "R".
Proof. destruct c as [[] [] [] [] [] [] [] []]; reflexivity. Qed.

Lemma lower_char_u (c : ascii) : Ascii.eqb (lower_char c) "u" = either c "u" "U".
Proof. destruct c as [[] [] [] [] [] [] [] []]; reflexivity. Qed.

Lemma lower_char_e (c : ascii) : Ascii.eqb (lower_char c) "e" = either c "e" "E".
Proof. destruct c as [[] [] [] [] [] [] [] []]; reflexivity. Qed.

(** [value.lower() == "true"] holds exactly for the spellings of "true". *)
Lemma lower_is_true (v : string) : String.eqb (lower v) "true" = spells_true v.
Proof.
  destruct v as [|c1 [|c2 [|c3 [|c4 [|c5 v]]]]]; simpl;
    rewrite ?lower_char_t, ?lower_char_r, ?lower_char_u, ?lower_char_e;
    repeat match goal with
           | |- context [either ?c ?lo ?up] => destruct (either c lo up)
           end;
    reflexivity.
Qed.

(** X14: fallback is enabled when the variable [BEDROCK_FALLBACK] is not
    set, and when it is set, exactly when its value is the word "true" in
    any mix of cases; every other value, the empty one, ["1"] and ["yes"]
    included, disables it. *)
Theorem bedrock_fallback_from_environment (environ : gmap string string) :
  (environ !! "BEDROCK_FALLBACK" = None ->
   BEDROCK_FALLBACK (load_config environ) = true)
  /\ (forall v,
        environ !! "BEDROCK_FALLBACK" = Some v ->
        BEDROCK_FALLBACK (load_config environ) = spells_true v)
  /\ spells_true "" = false
  /\ spells_true "1" = false
  /\ spells_true "yes" = false
  /\ spells_true "True" = true.
Proof.
  unfold load_config, os_getenv. simpl. repeat split.
  - intros ->. reflexivity.
  - intros v ->. apply lower_is_true.
Qed.

Lemma bedrock_fallback_from_environment_witness :
  BEDROCK_FALLBACK (load_config ∅) = true
  /\ BEDROCK_FALLBACK (load_config {[ "BEDROCK_FALLBACK" := "TRUE" ]}) = true
  /\ BEDROCK_FALLBACK (load_config {[ "BEDROCK_FALLBACK" := "1" ]}) = false.
Proof.
  split; [|split].
  - destruct (bedrock_fallback_from_environment ∅) as (Hunset & _).
    exact (Hunset eq_refl).
  - destruct (bedrock_fallback_from_environment {[ "BEDROCK_FALLBACK" := "TRUE" ]})
      as (_ & Hset & _).
    exact (Hset "TRUE" eq_refl).
  - destruct (bedrock_fallback_from_environment {[ "BEDROCK_FALLBACK" := "1" ]})
      as (_ & Hset & _).
    exact (Hset "1" eq_refl).
Defined.

(** X15: under a configuration loaded from an environment in which
    [BEDROCK_FALLBACK] is set to anything but a spelling of "true", a
    failure of the primary adapter is the failure of [generate_text]: it
    raises status 500 and the fallback adapter is not entered. *)
Theorem fallback_disabled_by_environment
    (environ : gmap string string) (v : string)
    (request : GenerateRequest.t) (w : World) (e : Exception) (w1 : World) :
  environ !! "BEDROCK_FALLBACK" = Some v ->
  spells_true v = false ->
  generate_with_ollama (load_config environ) request (at_primary request w)
  = (inl e, w1) ->
  fst (generate_text (load_config environ) request w)
  = inl (HTTPException 500
           ("Ollama failed and Bedrock fallback disabled: " +:+ str e))
  /\ invocations Bedrock (trace (snd (generate_text (load_config environ) request w)))
     = invocations Bedrock (trace w).
Proof.
  intros Hset Hv H1.
  assert (Hoff : BEDROCK_FALLBACK (load_config environ) = false).
  { unfold load_config, os_getenv. simpl. now rewrite Hset, lower_is_true. }
  pose proof (generate_with_ollama_quiet (load_config environ) request
                (at_primary request w)) as Hq1.
  rewrite H1 in Hq1. cbn [snd] in Hq1.
  unfold generate_text.
  rewrite (generate_text_with_disabled _ _ _ _ _ e w1 Hoff H1). cbn [fst snd].
  split; [reflexivity|].
  cbn [trace record]. rewrite invocations_app,
    (extends_quietly_invocations _ _ _ Hq1), at_primary_invocations.
  change (invocations Bedrock [Log WARNING ("Ollama failed: " +:+ str e)]) with 0%nat.
  lia.
Qed.

Lemma fallback_disabled_by_environment_witness :
  fst (generate_text (load_config {[ "BEDROCK_FALLBACK" := "1" ]}) hello world_unreachable)
  = inl (HTTPException 500
           "Ollama failed and Bedrock fallback disabled: 500: Ollama generation failed: All connection attempts failed").
Proof.
  edestruct (fallback_disabled_by_environment {[ "BEDROCK_FALLBACK" := "1" ]} "1"
               hello world_unreachable) as (Hrun & _);
    [reflexivity | reflexivity | reflexivity |].
  rewrite Hrun. reflexivity.
Defined.

(** ** Attempts *)

(** X16: in every call of [generate_text] the primary adapter is entered
    exactly once, and the fallback adapter once when the primary adapter
    raised and fallback is enabled, and not at all otherwise: no backend
    is tried twice. *)
Theorem generate_text_attempts
    (cfg : Config) (request : GenerateRequest.t) (w : World) :
  invocations Ollama (trace (snd (generate_text cfg request w)))
  = S (invocations Ollama (trace w))
  /\ invocations Bedrock (trace (snd (generate_text cfg request w)))
     = (invocations Bedrock (trace w)
        + match fst (generate_with_ollama cfg request (at_primary request w)) with
          | inl _ => if BEDROCK_FALLBACK cfg then 1 else 0
          | inr _ => 0
          end)%nat.
Proof.
  unfold generate_text. rewrite generate_text_with_cases.
  pose proof (generate_with_ollama_quiet cfg request (at_primary request w)) as Hq1.
  destruct (generate_with_ollama cfg request (at_primary request w))
    as [[e|r] w1]; cbn [fst snd] in *.
  - destruct (BEDROCK_FALLBACK cfg).
    + rewrite generate_with_bedrock_fallback_run. cbn [snd trace].
      rewrite !invocations_app, !at_fallback_invocations,
        !(extends_quietly_invocations _ _ _ Hq1), !at_primary_invocations.
      change (invocations Ollama [Sleep 0.1]) with 0%nat.
      change (invocations Bedrock [Sleep 0.1]) with 0%nat.
      lia.
    + cbn [snd trace record]. rewrite !invocations_app,
        !(extends_quietly_invocations _ _ _ Hq1), !at_primary_invocations.
      change (invocations Ollama [Log WARNING ("Ollama failed: " +:+ str e)]) with 0%nat.
      change (invocations Bedrock [Log WARNING ("Ollama failed: " +:+ str e)]) with 0%nat.
      lia.
  - rewrite !(extends_quietly_invocations _ _ _ Hq1), !at_primary_invocations. lia.
Qed.
